(** * LLM API handler factory

    A shallow embedding of
    [skyvern/forge/sdk/api/llm/api_handler_factory.py]: the class
    [LLMAPIHandlerFactory] with its three methods
    [get_llm_api_handler], [get_api_parameters] and
    [register_custom_handler], and the closure [llm_api_handler] that
    [get_llm_api_handler] returns.

    The handler is a sequence of calls to collaborators (artifact
    manager, database, message builder, litellm, response parser, logger).
    It is embedded in a state-and-exception monad over a [world] that
    holds the live settings and the history of collaborator calls; a
    computation returns its result together with the calls it made, each
    with the exception the call raised, if any. *)

From Stdlib Require Import ZArith.
From stdpp Require Import gmap strings list.

Open Scope string_scope.
Open Scope list_scope.

#[local] Set Warnings "-register-all".

(** ** Python values *)

(** [bytes] objects. *)
Definition bytes : Type := list Byte.byte.

(** Python [str] objects are kept in generalized UTF-8: a code point
    is written as UTF-8 writes it, a surrogate (U+D800 to U+DFFF) too, as
    the three bytes [ED A0..BF 80..BF] that UTF-8 proper forbids. *)
Definition encode_utf8 (s : string) : bytes := String.list_byte_of_string s.

(** Whether a [str] holds a surrogate: [ED] is a lead byte only, and
    its first continuation byte is below [A0] for every other code point. *)
Fixpoint surrogate_in (bs : list Byte.byte) : bool :=
  match bs with
  | b1 :: ((b2 :: _) as rest) =>
      (Byte.eqb b1 Byte.xed
       && N.leb 160 (Byte.to_N b2) && N.leb (Byte.to_N b2) 191)
      || surrogate_in rest
  | _ => false
  end.

Definition has_surrogate (s : string) : bool :=
  surrogate_in (String.list_byte_of_string s).

(** The values that flow through the handler untouched: parameter
    values, provider messages, the completion response, its cost and the
    parsed response.  A [float] is identified by its [repr]. *)
Inductive pyvalue : Type :=
| PyNone
| PyBool (b : bool)
| PyInt (n : Z)
| PyFloat (repr : string)
| PyStr (s : string)
| PyList (items : list pyvalue)
| PyDict (items : list (string * pyvalue)).

(** A [dict[str, Any]]: keys in insertion order, no key twice. *)
Definition pydict : Type := list (string * pyvalue).

(** [d[k] = v]: an existing key keeps its position. *)
Fixpoint dict_set (k : string) (v : pyvalue) (d : pydict) : pydict :=
  match d with
  | [] => [(k, v)]
  | (k', v') :: d' =>
      if String.eqb k k' then (k, v) :: d' else (k', v') :: dict_set k v d'
  end.

(** The first key of [d] that is also a keyword of the call
    [acompletion(model=..., messages=..., **d)]. *)
Definition repeated_keyword (d : pydict) : option string :=
  fst <$> find (fun kv => String.eqb (fst kv) "model" || String.eqb (fst kv) "messages") d.

(** [{**d, **extra}]. *)
Definition dict_update (d extra : pydict) : pydict :=
  fold_left (fun acc kv => dict_set (fst kv) (snd kv) acc) extra d.

(** ** Exceptions *)

Inductive pyexn_class : Type :=
| OpenAIError                       (* openai.OpenAIError and its subclasses *)
| Exception (name : string)         (* every other subclass of Exception *)
| BaseException (name : string).    (* outside Exception: CancelledError, KeyboardInterrupt *)

(** An exception object: its class, its argument, and the [__cause__]
    set by [raise ... from ...]. *)
Inductive pyexn : Type :=
| PyExn (cls : pyexn_class) (arg : string) (cause : option pyexn).

Definition exn_class (e : pyexn) : pyexn_class :=
  match e with PyExn c _ _ => c end.

Definition exn_cause (e : pyexn) : option pyexn :=
  match e with PyExn _ _ c => c end.

(** [isinstance(e, openai.OpenAIError)] *)
Definition is_OpenAIError (e : pyexn) : bool :=
  match exn_class e with OpenAIError => true | _ => false end.

(** [isinstance(e, Exception)] *)
Definition is_Exception (e : pyexn) : bool :=
  match exn_class e with BaseException _ => false | _ => true end.

(** [LLMProviderError(llm_key)] raised [from e]. *)
Definition LLMProviderError (llm_key : string) (e : pyexn) : pyexn :=
  PyExn (Exception "LLMProviderError") llm_key (Some e).

Definition DuplicateCustomLLMProviderError (llm_key : string) : pyexn :=
  PyExn (Exception "DuplicateCustomLLMProviderError") llm_key None.

(** The [UnicodeEncodeError] of [s.encode("utf-8")]: surrogates not allowed. *)
Definition UnicodeEncodeError : pyexn :=
  PyExn (Exception "UnicodeEncodeError") "surrogates not allowed" None.

(** The [TypeError] of a call that receives a keyword argument twice. *)
Definition TypeError_multiple_values (kw : string) : pyexn :=
  PyExn (Exception "TypeError") kw None.

(** ** Data model *)

Inductive ArtifactType : Type :=
| LLM_PROMPT
| SCREENSHOT_LLM
| LLM_REQUEST
| LLM_RESPONSE
| LLM_RESPONSE_PARSED.

#[global] Instance ArtifactType_eq_dec : EqDecision ArtifactType.
Proof. solve_decision. Defined.

(** The fields of [Step] the handler reads. *)
Record Step : Type := {
  task_id : string;
  step_id : string;
  organization_id : string
}.

(** The fields of [LLMConfig] the handler reads. *)
Record LLMConfig : Type := {
  model_name : string;
  supports_vision : bool
}.

(** What [SettingsManager.get_settings()] returns. *)
Record Settings : Type := {
  LLM_CONFIG_MAX_TOKENS : pyvalue;
  LLM_CONFIG_TEMPERATURE : pyvalue
}.

(** ** Collaborator calls and the world *)

Inductive call : Type :=
| create_artifact_call (step : Step) (artifact_type : ArtifactType) (data : bytes)
| llm_messages_builder_call (prompt : string) (screenshots : option (list bytes))
| acompletion_call (model : string) (messages : pyvalue) (kwargs : pydict)
| log_exception_call (msg : string) (llm_key : string)
| completion_cost_call (completion_response : pyvalue)
| update_step_call (task_id step_id organization_id : string) (incremental_cost : pyvalue)
| parse_api_response_call (response : pyvalue).

(** A call together with the exception it raised ([None]: it returned). *)
Definition event : Type := call * option pyexn.

(** What an invocation can observe: the live settings and the calls
    made so far. *)
Record world : Type := {
  settings : Settings;
  history : list event
}.

Definition after (w : world) (evs : list event) : world :=
  {| settings := settings w; history := history w ++ evs |}.

Inductive result (A : Type) : Type :=
| Ok (a : A)
| Raise (e : pyexn).
Arguments Ok {A} a.
Arguments Raise {A} e.

Definition raised {A} (r : result A) : option pyexn :=
  match r with Ok _ => None | Raise e => Some e end.

(** [s.encode("utf-8")] *)
Definition str_encode (s : string) : result bytes :=
  if has_surrogate s then Raise UnicodeEncodeError else Ok (encode_utf8 s).

(** The collaborators.  The artifact manager, the database and the
    remote completion API answer depending on the calls made so far;
    the message builder, the cost estimate, the response parser and the
    two serializers are functions of their arguments, and may raise. *)
Record collaborators : Type := {
  create_artifact : list event -> Step -> ArtifactType -> bytes -> option pyexn;
  update_step : list event -> string -> string -> string -> pyvalue -> option pyexn;
  llm_messages_builder : string -> option (list bytes) -> result pyvalue;
  acompletion : list event -> string -> pyvalue -> pydict -> result pyvalue;
  completion_cost : pyvalue -> result pyvalue;
  parse_api_response : pyvalue -> result pyvalue;
  model_dump_json : pyvalue -> result string;          (* response.model_dump_json(indent=2) *)
  json_dumps : option nat -> pyvalue -> result string  (* json.dumps(v, indent=...) *)
}.

(** ** The monad of the handler *)

(** A computation runs in a world and yields its result, or the
    exception it raised, together with the calls it made, in order. *)
Definition M (A : Type) : Type := world -> result A * list event.

Definition ret {A} (a : A) : M A := fun _ => (Ok a, []).

Definition raise {A} (e : pyexn) : M A := fun _ => (Raise e, []).

Definition bind {A B} (m : M A) (k : A -> M B) : M B :=
  fun w =>
    match m w with
    | (Ok a, evs) =>
        match k a (after w evs) with
        | (r, evs') => (r, evs ++ evs')
        end
    | (Raise e, evs) => (Raise e, evs)
    end.

Declare Scope handler_scope.
Delimit Scope handler_scope with handler.
Notation "x <- c ;; k" := (bind c (fun x => k))
  (at level 100, c at next level, right associativity) : handler_scope.
Notation "c ;; k" := (bind c (fun _ => k))
  (at level 100, right associativity) : handler_scope.
Open Scope handler_scope.

(** [try: body except BaseException as e: handler e] *)
Definition try_except {A} (body : M A) (handler : pyexn -> M A) : M A :=
  fun w =>
    match body w with
    | (Ok a, evs) => (Ok a, evs)
    | (Raise e, evs) =>
        match handler e (after w evs) with
        | (r, evs') => (r, evs ++ evs')
        end
    end.

Definition get_settings : M Settings := fun w => (Ok (settings w), []).

(** The evaluation of an expression that calls no collaborator. *)
Definition eval {A} (r : result A) : M A := fun _ => (r, []).

(** A call that returns nothing. *)
Definition perform (c : call) (answer : list event -> option pyexn) : M unit :=
  fun w =>
    let o := answer (history w) in
    (match o with None => Ok tt | Some e => Raise e end, [(c, o)]).

(** A call that returns a value. *)
Definition request {A} (c : call) (answer : list event -> result A) : M A :=
  fun w =>
    let r := answer (history w) in
    (r, [(c, raised r)]).

Section Handler.

Variable app : collaborators.

Definition ARTIFACT_MANAGER_create_artifact
    (step : Step) (artifact_type : ArtifactType) (data : bytes) : M unit :=
  perform (create_artifact_call step artifact_type data)
          (fun tr => create_artifact app tr step artifact_type data).

Definition DATABASE_update_step
    (task_id step_id organization_id : string) (incremental_cost : pyvalue) : M unit :=
  perform (update_step_call task_id step_id organization_id incremental_cost)
          (fun tr => update_step app tr task_id step_id organization_id incremental_cost).

Definition call_llm_messages_builder
    (prompt : string) (screenshots : option (list bytes)) : M pyvalue :=
  request (llm_messages_builder_call prompt screenshots)
          (fun _ => llm_messages_builder app prompt screenshots).

(** [litellm.acompletion(model=..., messages=..., **parameters)]: the
    first key of [parameters] that repeats a keyword is a [TypeError] at
    the call site, before litellm is entered. *)
Definition litellm_acompletion
    (model : string) (messages : pyvalue) (parameters : pydict) : M pyvalue :=
  match repeated_keyword parameters with
  | Some kw => raise (TypeError_multiple_values kw)
  | None => request (acompletion_call model messages parameters)
                    (fun tr => acompletion app tr model messages parameters)
  end.

Definition litellm_completion_cost (completion_response : pyvalue) : M pyvalue :=
  request (completion_cost_call completion_response)
          (fun _ => completion_cost app completion_response).

Definition call_parse_api_response (response : pyvalue) : M pyvalue :=
  request (parse_api_response_call response)
          (fun _ => parse_api_response app response).

(** [json.dumps(v, indent=indent).encode("utf-8")] *)
Definition json_bytes (indent : option nat) (v : pyvalue) : result bytes :=
  match json_dumps app indent v with
  | Ok dump => str_encode dump
  | Raise e => Raise e
  end.

(** [response.model_dump_json(indent=2).encode("utf-8")] *)
Definition response_bytes (response : pyvalue) : result bytes :=
  match model_dump_json app response with
  | Ok dump => str_encode dump
  | Raise e => Raise e
  end.

Definition LOG_exception (msg : string) (llm_key : string) : M unit :=
  perform (log_exception_call msg llm_key) (fun _ => None).

(** [LLMAPIHandlerFactory.get_api_parameters] *)
Definition get_api_parameters : M pydict :=
  s1 <- get_settings ;;
  s2 <- get_settings ;;
  ret [("max_tokens", LLM_CONFIG_MAX_TOKENS s1);
       ("temperature", LLM_CONFIG_TEMPERATURE s2)].

(** [for screenshot in screenshots: create_artifact(step, SCREENSHOT_LLM, screenshot)] *)
Fixpoint for_screenshots (step : Step) (screenshots : list bytes) : M unit :=
  match screenshots with
  | [] => ret tt
  | screenshot :: rest =>
      ARTIFACT_MANAGER_create_artifact step SCREENSHOT_LLM screenshot ;;
      for_screenshots step rest
  end.

(** [if step: body]; a [Step] object is true. *)
Definition if_step (step : option Step) (body : Step -> M unit) : M unit :=
  match step with
  | Some s => body s
  | None => ret tt
  end.

(** The request body [{"model": ..., "messages": ..., **parameters}]. *)
Definition request_body (model : string) (messages : pyvalue) (parameters : pydict) : pyvalue :=
  PyDict (dict_update [("model", PyStr model); ("messages", messages)] parameters).

(** The closure [llm_api_handler] of [get_llm_api_handler(llm_key)],
    with the captured [llm_key] and [llm_config] as its first arguments. *)
Definition llm_api_handler
    (llm_key : string) (llm_config : LLMConfig)
    (prompt : string) (step : option Step)
    (screenshots : option (list bytes)) (parameters : option pydict) : M pyvalue :=
  parameters <- match parameters with
                | None => get_api_parameters
                | Some p => ret p
                end ;;
  if_step step (fun step =>
    data <- eval (str_encode prompt) ;;
    ARTIFACT_MANAGER_create_artifact step LLM_PROMPT data ;;
    for_screenshots step (default [] screenshots)) ;;
  let screenshots := if negb (supports_vision llm_config) then None else screenshots in
  messages <- call_llm_messages_builder prompt screenshots ;;
  if_step step (fun step =>
    data <- eval (json_bytes None
              (request_body (model_name llm_config) messages parameters)) ;;
    ARTIFACT_MANAGER_create_artifact step LLM_REQUEST data) ;;
  response <- try_except
    (litellm_acompletion (model_name llm_config) messages parameters)
    (fun e =>
       if is_OpenAIError e then raise (LLMProviderError llm_key e)
       else if is_Exception e then
         LOG_exception "LLM request failed unexpectedly" llm_key ;;
         raise (LLMProviderError llm_key e)
       else raise e) ;;
  if_step step (fun step =>
    data <- eval (response_bytes response) ;;
    ARTIFACT_MANAGER_create_artifact step LLM_RESPONSE data ;;
    llm_cost <- litellm_completion_cost response ;;
    DATABASE_update_step (task_id step) (step_id step) (organization_id step) llm_cost) ;;
  parsed_response <- call_parse_api_response response ;;
  if_step step (fun step =>
    data <- eval (json_bytes (Some 2%nat) parsed_response) ;;
    ARTIFACT_MANAGER_create_artifact step LLM_RESPONSE_PARSED data) ;;
  ret parsed_response.

End Handler.

(** ** The factory *)

(** [LLMAPIHandler]: what [get_llm_api_handler] returns and what
    [register_custom_handler] stores. *)
Definition LLMAPIHandler : Type :=
  string -> option Step -> option (list bytes) -> option pydict -> M pyvalue.

(** The process-wide state the class methods can reach: the
    configurations of [LLMConfigRegistry] and the class attribute
    [_custom_handlers]. *)
Record process : Type := {
  _configs : gmap string LLMConfig;
  _custom_handlers : gmap string LLMAPIHandler
}.

Definition with_custom_handlers (p : process) (h : gmap string LLMAPIHandler) : process :=
  {| _configs := _configs p; _custom_handlers := h |}.

Definition ConfigurationNotFoundError (llm_key : string) : pyexn :=
  PyExn (Exception "ConfigurationNotFoundError") llm_key None.

(** Modelled from the spec: [LLMConfigRegistry.get_config], which is
    imported from [config_registry] and not part of this file.  It looks
    the key up and fails with [ConfigurationNotFoundError] if it is absent. *)
Definition get_config (p : process) (llm_key : string) : result LLMConfig :=
  match _configs p !! llm_key with
  | Some llm_config => Ok llm_config
  | None => Raise (ConfigurationNotFoundError llm_key)
  end.

(** [LLMAPIHandlerFactory.get_llm_api_handler] *)
Definition get_llm_api_handler
    (app : collaborators) (p : process) (llm_key : string) : result LLMAPIHandler :=
  match get_config p llm_key with
  | Raise e => Raise e
  | Ok llm_config => Ok (llm_api_handler app llm_key llm_config)
  end.

(** [LLMAPIHandlerFactory.register_custom_handler]: the result and the
    process state it leaves. *)
Definition register_custom_handler
    (p : process) (llm_key : string) (handler : LLMAPIHandler) : result unit * process :=
  if decide (is_Some (_custom_handlers p !! llm_key))
  then (Raise (DuplicateCustomLLMProviderError llm_key), p)
  else (Ok tt, with_custom_handlers p (<[llm_key := handler]> (_custom_handlers p))).

(** ** Reading the calls of an invocation *)

Definition is_acompletion (c : call) : bool :=
  match c with acompletion_call _ _ _ => true | _ => false end.

Definition is_create_artifact (c : call) : bool :=
  match c with create_artifact_call _ _ _ => true | _ => false end.

Definition is_update_step (c : call) : bool :=
  match c with update_step_call _ _ _ _ => true | _ => false end.

(** The artifact type a [create_artifact] call was asked to store. *)
Definition artifact_type_of (c : call) : option ArtifactType :=
  match c with create_artifact_call _ ty _ => Some ty | _ => None end.

(** The calls the handler makes once the completion has returned. *)
Definition after_completion (c : call) : bool :=
  match c with
  | create_artifact_call _ LLM_RESPONSE _
  | create_artifact_call _ LLM_RESPONSE_PARSED _
  | completion_cost_call _
  | update_step_call _ _ _ _
  | parse_api_response_call _ => true
  | _ => false
  end.

(** The artifact a call created, if it is a [create_artifact] that returned. *)
Definition created (ev : event) : option (ArtifactType * bytes) :=
  match ev with
  | (create_artifact_call _ ty data, None) => Some (ty, data)
  | _ => None
  end.

Definition artifacts_created (evs : list event) : list (ArtifactType * bytes) :=
  omap created evs.

(** The call of the screenshot loop that stores [screenshot]. *)
Definition screenshot_created (step : Step) (screenshot : bytes) : event :=
  (create_artifact_call step SCREENSHOT_LLM screenshot, None).

(** The screenshots the message builder receives. *)
Definition screenshots_sent (llm_config : LLMConfig) (screenshots : option (list bytes))
    : option (list bytes) :=
  if supports_vision llm_config then screenshots else None.

(** The defaults of [get_api_parameters] under given settings. *)
Definition default_parameters (s : Settings) : pydict :=
  [("max_tokens", LLM_CONFIG_MAX_TOKENS s); ("temperature", LLM_CONFIG_TEMPERATURE s)].

(** [__cause__] chains are finite. *)
Fixpoint cause_depth (e : pyexn) : nat :=
  match e with
  | PyExn _ _ None => 0
  | PyExn _ _ (Some c) => S (cause_depth c)
  end.

(** ** A small deployment to run the handler on *)

Module Demo.

Definition gpt4v : LLMConfig := {| model_name := "gpt-4-vision-preview"; supports_vision := true |}.
Definition gpt35 : LLMConfig := {| model_name := "gpt-3.5-turbo"; supports_vision := false |}.

Definition step1 : Step := {| task_id := "tsk_1"; step_id := "stp_1"; organization_id := "o_1" |}.

Definition live : Settings :=
  {| LLM_CONFIG_MAX_TOKENS := PyInt 500; LLM_CONFIG_TEMPERATURE := PyFloat "0.1" |}.

Definition shot1 : bytes := [Byte.x89; Byte.x50; Byte.x4e; Byte.x47].
Definition shot2 : bytes := [Byte.xff; Byte.xd8; Byte.xff].

Definition messages_of (prompt : string) (screenshots : option (list bytes)) : pyvalue :=
  PyList [PyDict [("role", PyStr "user");
                  ("content", PyList (PyStr prompt ::
                     ((fun _ => PyStr "image") <$> default [] screenshots)))]].

Definition answer : pyvalue := PyDict [("choices", PyList [PyStr "{}"])].

Definition parsed_answer : pyvalue := PyDict [("actions", PyList [])].

(** Every collaborator answers. *)
Definition ok : collaborators := {|
  create_artifact := fun _ _ _ _ => None;
  update_step := fun _ _ _ _ _ => None;
  llm_messages_builder := fun p s => Ok (messages_of p s);
  acompletion := fun _ _ _ _ => Ok answer;
  completion_cost := fun _ => Ok (PyFloat "0.002");
  parse_api_response := fun _ => Ok parsed_answer;
  model_dump_json := fun _ => Ok "{...}";
  json_dumps := fun _ _ => Ok "{}"
|}.

Definition rate_limited : pyexn := PyExn OpenAIError "RateLimitError" None.
Definition disk_full : pyexn := PyExn (Exception "OSError") "No space left on device" None.

(** The provider refuses the completion. *)
Definition provider_down : collaborators := {|
  create_artifact := create_artifact ok;
  update_step := update_step ok;
  llm_messages_builder := llm_messages_builder ok;
  acompletion := fun _ _ _ _ => Raise rate_limited;
  completion_cost := completion_cost ok;
  parse_api_response := parse_api_response ok;
  model_dump_json := model_dump_json ok;
  json_dumps := json_dumps ok
|}.

(** The artifact store fails from the request artifact on. *)
Definition store_full : collaborators := {|
  create_artifact := fun _ _ ty _ =>
    match ty with LLM_PROMPT | SCREENSHOT_LLM => None | _ => Some disk_full end;
  update_step := update_step ok;
  llm_messages_builder := llm_messages_builder ok;
  acompletion := acompletion ok;
  completion_cost := completion_cost ok;
  parse_api_response := parse_api_response ok;
  model_dump_json := model_dump_json ok;
  json_dumps := json_dumps ok
|}.


Definition w0 : world := {| settings := live; history := [] |}.

Definition prompt : string := "Find the login button".

(** A custom handler that answers without calling anyone. *)
Definition custom_handler : LLMAPIHandler := fun _ _ _ _ => ret PyNone.

Definition deployment : process := {|
  _configs := <["OPENAI_GPT4V" := gpt4v]> (<["OPENAI_GPT35" := gpt35]> ∅);
  _custom_handlers := ∅
|}.

End Demo.

(** ** Counting the calls of an invocation *)

Definition is_llm_messages_builder (c : call) : bool :=
  match c with llm_messages_builder_call _ _ => true | _ => false end.

Definition is_log_exception (c : call) : bool :=
  match c with log_exception_call _ _ => true | _ => false end.

(** How many of the calls satisfy [f]. *)
Definition calls_where (f : call -> bool) (evs : list event) : nat :=
  length (List.filter (fun ev => f (fst ev)) evs).

(** The screenshots stored, in the order of their artifacts. *)
Definition screenshot_stored (ev : event) : option bytes :=
  match ev with
  | (create_artifact_call _ SCREENSHOT_LLM data, None) => Some data
  | _ => None
  end.

Definition screenshots_stored (evs : list event) : list bytes :=
  omap screenshot_stored evs.

(** The keys of a [dict], in insertion order. *)
Definition dict_keys (d : pydict) : list string := fst <$> d.


(** A computation that reads the calls made so far but not the settings. *)
Definition settings_blind {A} (m : M A) : Prop :=
  forall w w', history w = history w' -> m w = m w'.


(** ** Collaborators that fail *)

Module Outage.

(** A message builder that rejects its input. *)
Definition bad_image : pyexn := PyExn (Exception "ValueError") "not an image" None.

Definition broken_builder : collaborators := {|
  create_artifact := create_artifact Demo.ok;
  update_step := update_step Demo.ok;
  llm_messages_builder := fun _ _ => Raise bad_image;
  acompletion := acompletion Demo.ok;
  completion_cost := completion_cost Demo.ok;
  parse_api_response := parse_api_response Demo.ok;
  model_dump_json := model_dump_json Demo.ok;
  json_dumps := json_dumps Demo.ok
|}.

Definition timeout : pyexn := PyExn (Exception "TimeoutError") "" None.

Definition provider_hangs : collaborators := {|
  create_artifact := create_artifact Demo.ok;
  update_step := update_step Demo.ok;
  llm_messages_builder := llm_messages_builder Demo.ok;
  acompletion := fun _ _ _ _ => Raise timeout;
  completion_cost := completion_cost Demo.ok;
  parse_api_response := parse_api_response Demo.ok;
  model_dump_json := model_dump_json Demo.ok;
  json_dumps := json_dumps Demo.ok
|}.

(** An artifact store that takes no screenshots. *)
Definition too_large : pyexn := PyExn (Exception "ValueError") "artifact too large" None.

Definition no_screenshots : collaborators := {|
  create_artifact := fun _ _ ty _ =>
    match ty with SCREENSHOT_LLM => Some too_large | _ => None end;
  update_step := update_step Demo.ok;
  llm_messages_builder := llm_messages_builder Demo.ok;
  acompletion := acompletion Demo.ok;
  completion_cost := completion_cost Demo.ok;
  parse_api_response := parse_api_response Demo.ok;
  model_dump_json := model_dump_json Demo.ok;
  json_dumps := json_dumps Demo.ok
|}.

(** A completion that is cancelled while it is awaited. *)
Definition cancelled : pyexn := PyExn (BaseException "CancelledError") "" None.

Definition provider_cancelled : collaborators := {|
  create_artifact := create_artifact Demo.ok;
  update_step := update_step Demo.ok;
  llm_messages_builder := llm_messages_builder Demo.ok;
  acompletion := fun _ _ _ _ => Raise cancelled;
  completion_cost := completion_cost Demo.ok;
  parse_api_response := parse_api_response Demo.ok;
  model_dump_json := model_dump_json Demo.ok;
  json_dumps := json_dumps Demo.ok
|}.

(** A response parser whose result [json.dumps] cannot serialize, and
    parameters it cannot serialize either. *)
Definition not_serializable : pyexn :=
  PyExn (Exception "TypeError") "Object of type set is not JSON serializable" None.

Definition unserializable : collaborators := {|
  create_artifact := create_artifact Demo.ok;
  update_step := update_step Demo.ok;
  llm_messages_builder := llm_messages_builder Demo.ok;
  acompletion := acompletion Demo.ok;
  completion_cost := completion_cost Demo.ok;
  parse_api_response := parse_api_response Demo.ok;
  model_dump_json := model_dump_json Demo.ok;
  json_dumps := fun _ _ => Raise not_serializable
|}.

(** A prompt that ends in the lone surrogate U+D800. *)
Definition torn_prompt : string :=
  "Find " +:+ String (Ascii.ascii_of_byte Byte.xed)
               (String (Ascii.ascii_of_byte Byte.xa0)
                  (String (Ascii.ascii_of_byte Byte.x80) EmptyString)).

End Outage.

(** ** Running a computation backwards *)

Section Inversion.

Context {A B : Type}.

Lemma inv_ret (a : A) w r evs :
  ret a w = (r, evs) -> r = Ok a /\ evs = [].
Proof. unfold ret. intros H. by simplify_eq. Qed.

Lemma inv_raise (e : pyexn) w (r : result A) evs :
  raise e w = (r, evs) -> r = Raise e /\ evs = [].
Proof. unfold raise. intros H. by simplify_eq. Qed.

Lemma inv_bind (m : M A) (k : A -> M B) w r evs :
  bind m k w = (r, evs) ->
  (exists a evs1 evs2,
      m w = (Ok a, evs1) /\ k a (after w evs1) = (r, evs2) /\ evs = evs1 ++ evs2)
  \/ (exists e, m w = (Raise e, evs) /\ r = Raise e).
Proof.
  unfold bind. destruct (m w) as [[a|e] evs1].
  - destruct (k a (after w evs1)) as [r2 evs2] eqn:Hk. intros H.
    left. exists a, evs1, evs2. by simplify_eq.
  - intros H. right. exists e. by simplify_eq.
Qed.

Lemma inv_try_except (body : M A) (handler : pyexn -> M A) w r evs :
  try_except body handler w = (r, evs) ->
  (exists a, body w = (Ok a, evs) /\ r = Ok a)
  \/ (exists e evs1 evs2,
      body w = (Raise e, evs1) /\ handler e (after w evs1) = (r, evs2)
      /\ evs = evs1 ++ evs2).
Proof.
  unfold try_except. destruct (body w) as [[a|e] evs1].
  - intros H. left. exists a. by simplify_eq.
  - destruct (handler e (after w evs1)) as [r2 evs2] eqn:Hh. intros H.
    right. exists e, evs1, evs2. by simplify_eq.
Qed.

Lemma inv_request (c : call) (answer : list event -> result A) w r evs :
  request c answer w = (r, evs) ->
  r = answer (history w) /\ evs = [(c, raised r)].
Proof. unfold request. intros H. by simplify_eq. Qed.

End Inversion.

Lemma inv_perform (c : call) (answer : list event -> option pyexn) w r evs :
  perform c answer w = (r, evs) ->
  (answer (history w) = None /\ r = Ok tt /\ evs = [(c, None)])
  \/ (exists e, answer (history w) = Some e /\ r = Raise e /\ evs = [(c, Some e)]).
Proof.
  unfold perform. destruct (answer (history w)) as [e|] eqn:Ha; intros H.
  - right. exists e. by simplify_eq.
  - left. by simplify_eq.
Qed.

Lemma inv_eval {A} (x : result A) w r evs :
  eval x w = (r, evs) -> r = x /\ evs = [].
Proof. unfold eval. intros H. by simplify_eq. Qed.

Lemma str_encode_Ok s data :
  Ok data = str_encode s -> data = encode_utf8 s /\ has_surrogate s = false.
Proof. unfold str_encode. destruct (has_surrogate s); intros H; by simplify_eq. Qed.

Lemma inv_get_settings w r evs :
  get_settings w = (r, evs) -> r = Ok (settings w) /\ evs = [].
Proof. unfold get_settings. intros H. by simplify_eq. Qed.

Lemma settings_after w evs : settings (after w evs) = settings w.
Proof. reflexivity. Qed.

Lemma history_after w evs : history (after w evs) = history w ++ evs.
Proof. reflexivity. Qed.

(** One step backwards through a run, on every hypothesis that is one. *)
Ltac run_inv_step :=
  match goal with
  | H : ret _ _ = (_, _) |- _ => apply inv_ret in H as [? ?]
  | H : raise _ _ = (_, _) |- _ => apply inv_raise in H as [? ?]
  | H : get_settings _ = (_, _) |- _ => apply inv_get_settings in H as [? ?]
  | H : eval _ _ = (_, _) |- _ => apply inv_eval in H as [? ?]
  | H : request _ _ _ = (_, _) |- _ => apply inv_request in H as [? ?]
  | H : perform _ _ _ = (_, _) |- _ =>
      apply inv_perform in H as [(? & ? & ?)|(? & ? & ? & ?)]
  | H : bind _ _ _ = (_, _) |- _ =>
      apply inv_bind in H as [(? & ? & ? & ? & H & ?)|(? & H & ?)]; cbv beta in H
  | H : try_except _ _ _ = (_, _) |- _ =>
      apply inv_try_except in H as [(? & H & ?)|(? & ? & ? & ? & H & ?)]; cbv beta in H
  | H : (if ?b then _ else _) _ = (_, _) |- _ => destruct b eqn:?
  | H : match ?o with Some _ => _ | None => _ end _ = (_, _) |- _ => destruct o eqn:?
  | H : if_step _ _ _ = (_, _) |- _ => unfold if_step in H
  end.

Ltac run_inv := repeat (run_inv_step; simplify_eq).

Lemma for_screenshots_inv app step screenshots w r evs :
  for_screenshots app step screenshots w = (r, evs) ->
  (r = Ok tt /\ evs = fmap (screenshot_created step) screenshots)
  \/ (exists k screenshot e,
        screenshots !! k = Some screenshot /\ r = Raise e
        /\ create_artifact app
             (history w ++ fmap (screenshot_created step) (take k screenshots))
             step SCREENSHOT_LLM screenshot = Some e
        /\ evs = fmap (screenshot_created step) (take k screenshots)
                 ++ [(create_artifact_call step SCREENSHOT_LLM screenshot, Some e)]).
Proof.
  revert w r evs. induction screenshots as [|d rest IH]; intros w r evs H; simpl in H.
  - run_inv. by left.
  - unfold ARTIFACT_MANAGER_create_artifact in H. run_inv.
    + match goal with
      | H : for_screenshots _ _ _ _ = _ |- _ =>
          apply IH in H as [[-> ->]|(k & d' & e & Hk & -> & Hfail & ->)]
      end.
      * by left.
      * right. exists (S k), d', e.
        split; [done|]. split; [done|]. split; [|done].
        cbn [history after] in Hfail. by rewrite <- app_assoc in Hfail.
    + right. eexists 0%nat, d, _.
      split; [done|]. split; [done|]. split; [|done].
      cbn. by rewrite app_nil_r.
Qed.

(** ** Every way through the handler *)

Ltac unfold_handler H :=
  unfold llm_api_handler, get_api_parameters, ARTIFACT_MANAGER_create_artifact,
    DATABASE_update_step, call_llm_messages_builder, litellm_acompletion,
    litellm_completion_cost, call_parse_api_response, LOG_exception in H.

(** The answers of the history-dependent collaborators are of no use
    once the calls are known. *)
Ltac clear_answers :=
  repeat match goal with
  | H : create_artifact _ _ _ _ _ = _ |- _ => clear H
  | H : update_step _ _ _ _ _ _ = _ |- _ => clear H
  | H : _ = acompletion _ _ _ _ _ |- _ => clear H
  end.

(** One goal for each place where the run [H] can end, with the calls
    it made written out. *)
Ltac handler_cases H :=
  unfold_handler H; run_inv;
  repeat match goal with
  | H : for_screenshots _ _ _ _ = _ |- _ =>
      apply for_screenshots_inv in H as [[? ?]|(?&?&?&?&?&?&?)]; simplify_eq
  | H : Ok _ = str_encode _ |- _ => apply str_encode_Ok in H as [? ?]; simplify_eq
  end;
  cbn [List.app raised] in *.

(** Which call of a written-out list a member is. *)
Ltac in_trace H :=
  set_unfold in H;
  repeat first [ progress destruct_or? | progress destruct_and?
               | match goal with H : exists _, _ |- _ => destruct H end ];
  simplify_eq/=.

(** A property of every call of a written-out list. *)
Ltac each_event :=
  apply Forall_forall;
  let ev := fresh "ev" in let Hev := fresh "Hev" in
  intros ev Hev; in_trace Hev; cbn.

(** The calls before the last one of a written-out list. *)
Ltac split_last :=
  match goal with
  | |- exists c before, ?a :: ?F ++ ?T = _ /\ _ =>
      let b := eval cbn [removelast] in (removelast T) in
      eexists _, (a :: F ++ b);
      split; [cbn [List.app]; rewrite <- ?app_assoc; reflexivity|]
  | |- exists c before, ?T = _ /\ _ =>
      let b := eval cbn [removelast] in (removelast T) in
      eexists _, b; split; [reflexivity|]
  end.

(** A call of a written-out list. *)
Ltac find_event :=
  repeat first [ apply list_elem_of_here | apply list_elem_of_further
               | apply elem_of_app; right ].

Ltac last_event := rewrite ?last_cons, ?last_app; reflexivity.

Lemma LLMProviderError_fresh llm_key e : LLMProviderError llm_key e <> e.
Proof.
  intros H. apply (f_equal cause_depth) in H. simpl in H. lia.
Qed.

(** ** Errors *)

(** C2, as amended: if the remote completion call raises an exception
    [e] that is an instance of [Exception] (provider-specific or not), the
    invocation raises
    [LLMProviderError] carrying the provider key and chained from [e], and
    the invocation has made no cost update and stored no "LLM response" or
    "LLM response parsed" artifact. *)
Theorem remote_error_is_wrapped app llm_key llm_config prompt step screenshots parameters
    w r evs model messages kwargs e :
  llm_api_handler app llm_key llm_config prompt step screenshots parameters w = (r, evs) ->
  (acompletion_call model messages kwargs, Some e) ∈ evs ->
  is_Exception e = true ->
  r = Raise (LLMProviderError llm_key e)
  /\ exn_cause (LLMProviderError llm_key e) = Some e
  /\ Forall (fun ev => after_completion (fst ev) = false) evs.
Proof.
  intros H Hin He. handler_cases H; clear_answers; in_trace Hin; try congruence.
  all: split; [done | split; [done | each_event; done]].
Qed.

Lemma remote_error_is_wrapped_witness :
  (acompletion_call "gpt-3.5-turbo" (Demo.messages_of Demo.prompt None)
     (default_parameters Demo.live), Some Demo.rate_limited)
    ∈ snd (llm_api_handler Demo.provider_down "OPENAI_GPT35" Demo.gpt35 Demo.prompt
             (Some Demo.step1) (Some [Demo.shot1]) None Demo.w0)
  /\ fst (llm_api_handler Demo.provider_down "OPENAI_GPT35" Demo.gpt35 Demo.prompt
            (Some Demo.step1) (Some [Demo.shot1]) None Demo.w0)
     = Raise (LLMProviderError "OPENAI_GPT35" Demo.rate_limited).
Proof.
  assert (Hin : (acompletion_call "gpt-3.5-turbo" (Demo.messages_of Demo.prompt None)
     (default_parameters Demo.live), Some Demo.rate_limited)
    ∈ snd (llm_api_handler Demo.provider_down "OPENAI_GPT35" Demo.gpt35 Demo.prompt
             (Some Demo.step1) (Some [Demo.shot1]) None Demo.w0)).
  { vm_compute. do 4 apply list_elem_of_further. apply list_elem_of_here. }
  split; [exact Hin|].
  exact (proj1 (remote_error_is_wrapped Demo.provider_down "OPENAI_GPT35" Demo.gpt35
    Demo.prompt (Some Demo.step1) (Some [Demo.shot1]) None Demo.w0 _ _ _ _ _ _
    eq_refl Hin eq_refl)).
Defined.

(** C2 as stated fails: the completion is cancelled while it is
    awaited, which is no [Exception], and the invocation raises the
    cancellation as it is, not an [LLMProviderError]. *)
Lemma cancellation_is_not_wrapped :
  (acompletion_call "gpt-3.5-turbo" (Demo.messages_of Demo.prompt None)
     (default_parameters Demo.live), Some Outage.cancelled)
    ∈ snd (llm_api_handler Outage.provider_cancelled "OPENAI_GPT35" Demo.gpt35 Demo.prompt
             None None None Demo.w0)
  /\ fst (llm_api_handler Outage.provider_cancelled "OPENAI_GPT35" Demo.gpt35 Demo.prompt
            None None None Demo.w0)
     = Raise Outage.cancelled
  /\ fst (llm_api_handler Outage.provider_cancelled "OPENAI_GPT35" Demo.gpt35 Demo.prompt
            None None None Demo.w0)
     <> Raise (LLMProviderError "OPENAI_GPT35" Outage.cancelled).
Proof.
  split; [vm_compute; apply list_elem_of_further, list_elem_of_here|].
  split; [reflexivity | discriminate].
Qed.

(** What [except Exception] does not catch, a cancellation for one,
    leaves the invocation as it is. *)
Lemma non_exception_passes_through app llm_key llm_config prompt step screenshots
    parameters w r evs model messages kwargs e :
  llm_api_handler app llm_key llm_config prompt step screenshots parameters w = (r, evs) ->
  (acompletion_call model messages kwargs, Some e) ∈ evs ->
  is_Exception e = false ->
  r = Raise e /\ last evs = Some (acompletion_call model messages kwargs, Some e).
Proof.
  intros H Hin He. handler_cases H; clear_answers; in_trace Hin.
  all: try (unfold is_OpenAIError, is_Exception in *; destruct (exn_class _); discriminate).
  all: split; [done | last_event].
Qed.

(** Parameters that repeat a keyword of the completion call never
    reach the provider: the [TypeError] of the call is logged and wrapped. *)
Example repeated_keyword_is_wrapped :
  llm_api_handler Demo.ok "OPENAI_GPT35" Demo.gpt35 Demo.prompt None None
    (Some [("temperature", PyFloat "0.0"); ("model", PyStr "gpt-4")]) Demo.w0
  = (Raise (LLMProviderError "OPENAI_GPT35" (TypeError_multiple_values "model")),
     [(llm_messages_builder_call Demo.prompt None, None);
      (log_exception_call "LLM request failed unexpectedly" "OPENAI_GPT35", None)]).
Proof. reflexivity. Qed.

(** C7: an exception of the artifact manager or of the database is not
    caught: it is what the invocation raises, and the failed call is the
    last call of the invocation; if the failed call is the write of the
    "LLM request" artifact, the remote completion is never called. *)
Theorem collaborator_failure_propagates app llm_key llm_config prompt step screenshots
    parameters w r evs c e :
  llm_api_handler app llm_key llm_config prompt step screenshots parameters w = (r, evs) ->
  (c, Some e) ∈ evs ->
  is_create_artifact c = true \/ is_update_step c = true ->
  r = Raise e
  /\ last evs = Some (c, Some e)
  /\ (artifact_type_of c = Some LLM_REQUEST ->
      Forall (fun ev => is_acompletion (fst ev) = false) evs).
Proof.
  intros H Hin Hc. handler_cases H; clear_answers; in_trace Hin;
    try (destruct Hc; discriminate).
  all: split; [done | split; [last_event | intros Hty; try discriminate; each_event; done]].
Qed.

Lemma collaborator_failure_propagates_witness :
  llm_api_handler Demo.store_full "OPENAI_GPT4V" Demo.gpt4v Demo.prompt
    (Some Demo.step1) (Some [Demo.shot1; Demo.shot2]) None Demo.w0
  = (Raise Demo.disk_full,
     [(create_artifact_call Demo.step1 LLM_PROMPT (encode_utf8 Demo.prompt), None);
      screenshot_created Demo.step1 Demo.shot1;
      screenshot_created Demo.step1 Demo.shot2;
      (llm_messages_builder_call Demo.prompt (Some [Demo.shot1; Demo.shot2]), None);
      (create_artifact_call Demo.step1 LLM_REQUEST (encode_utf8 "{}"), Some Demo.disk_full)])
  /\ Forall (fun ev => is_acompletion (fst ev) = false)
       (snd (llm_api_handler Demo.store_full "OPENAI_GPT4V" Demo.gpt4v Demo.prompt
               (Some Demo.step1) (Some [Demo.shot1; Demo.shot2]) None Demo.w0)).
Proof.
  split; [reflexivity|].
  refine (proj2 (proj2 (collaborator_failure_propagates Demo.store_full "OPENAI_GPT4V"
    Demo.gpt4v Demo.prompt (Some Demo.step1) (Some [Demo.shot1; Demo.shot2]) None Demo.w0
    _ _ (create_artifact_call Demo.step1 LLM_REQUEST (encode_utf8 "{}")) Demo.disk_full
    eq_refl _ (or_introl eq_refl))) eq_refl).
  vm_compute. do 4 apply list_elem_of_further. apply list_elem_of_here.
Defined.






(** ** Artifacts *)

Lemma artifacts_created_app evs1 evs2 :
  artifacts_created (evs1 ++ evs2) = artifacts_created evs1 ++ artifacts_created evs2.
Proof. apply omap_app. Qed.

Lemma artifacts_created_screenshots step screenshots :
  artifacts_created (screenshot_created step <$> screenshots)
  = pair SCREENSHOT_LLM <$> screenshots.
Proof.
  induction screenshots as [|d rest IH]; [done|].
  unfold artifacts_created in *. rewrite !fmap_cons. cbn [omap list_omap created screenshot_created].
  by rewrite IH.
Qed.

(** C1, as amended: in an invocation with a Step that returns, exactly
    one "LLM prompt" artifact, then one "screenshot for LLM" artifact per
    supplied screenshot in input order, then exactly one "LLM request"
    artifact are created before the one remote completion call, and
    exactly one "LLM response" and one "LLM response parsed" artifact are
    created after it, in that order. *)
Theorem artifacts_around_remote_call app llm_key llm_config prompt step screenshots
    parameters w parsed evs :
  llm_api_handler app llm_key llm_config prompt (Some step) screenshots parameters w
    = (Ok parsed, evs) ->
  exists before remote_call afterwards request_data response_data parsed_data,
    evs = before ++ remote_call :: afterwards
    /\ is_acompletion (fst remote_call) = true
    /\ Forall (fun ev => is_acompletion (fst ev) = false) (before ++ afterwards)
    /\ Forall (fun ev => snd ev = None) evs
    /\ artifacts_created before
       = (LLM_PROMPT, encode_utf8 prompt)
         :: (pair SCREENSHOT_LLM <$> default [] screenshots)
         ++ [(LLM_REQUEST, request_data)]
    /\ json_bytes app (Some 2%nat) parsed = Ok parsed_data
    /\ artifacts_created afterwards
       = [(LLM_RESPONSE, response_data); (LLM_RESPONSE_PARSED, parsed_data)].
Proof.
  intros H. handler_cases H; clear_answers.
  all: eexists (_ :: (_ <$> _) ++ [_; _]), _, [_; _; _; _; _], _, _, _.
  all: split; [cbn [List.app]; rewrite <- ?app_assoc; reflexivity|].
  all: split; [reflexivity|].
  all: split; [each_event; done|].
  all: split; [each_event; done|].
  all: split; [|split; [symmetry; eassumption | reflexivity]].
  all: change (?a :: ?l ++ ?k) with ([a] ++ l ++ k).
  all: rewrite !artifacts_created_app, artifacts_created_screenshots; reflexivity.
Qed.

Lemma artifacts_around_remote_call_witness :
  map fst (artifacts_created
    (snd (llm_api_handler Demo.ok "OPENAI_GPT4V" Demo.gpt4v Demo.prompt
            (Some Demo.step1) (Some [Demo.shot1; Demo.shot2]) None Demo.w0)))
  = [LLM_PROMPT; SCREENSHOT_LLM; SCREENSHOT_LLM; LLM_REQUEST; LLM_RESPONSE; LLM_RESPONSE_PARSED]
  /\ exists before remote_call afterwards,
      snd (llm_api_handler Demo.ok "OPENAI_GPT4V" Demo.gpt4v Demo.prompt
             (Some Demo.step1) (Some [Demo.shot1; Demo.shot2]) None Demo.w0)
      = before ++ remote_call :: afterwards
      /\ is_acompletion (fst remote_call) = true
      /\ map fst (artifacts_created before)
         = [LLM_PROMPT; SCREENSHOT_LLM; SCREENSHOT_LLM; LLM_REQUEST]
      /\ map fst (artifacts_created afterwards) = [LLM_RESPONSE; LLM_RESPONSE_PARSED].
Proof.
  split; [reflexivity|].
  destruct (artifacts_around_remote_call Demo.ok "OPENAI_GPT4V" Demo.gpt4v Demo.prompt
    Demo.step1 (Some [Demo.shot1; Demo.shot2]) None Demo.w0 Demo.parsed_answer _ eq_refl)
    as (before & rc & afterwards & rq & rs & pd & Hevs & Hrc & _ & _ & Hb & _ & Ha).
  exists before, rc, afterwards.
  split; [exact Hevs|]. split; [exact Hrc|].
  rewrite Hb, Ha. split; reflexivity.
Defined.

(** C1 as stated fails: in this invocation, which returns, no split of
    the calls around a remote completion call leaves the "LLM request"
    artifact after the call. The request artifact is written before. *)
Lemma request_artifact_not_after_remote_call :
  fst (llm_api_handler Demo.ok "OPENAI_GPT4V" Demo.gpt4v Demo.prompt
         (Some Demo.step1) (Some [Demo.shot1]) None Demo.w0) = Ok Demo.parsed_answer
  /\ ~ exists before remote_call afterwards,
      snd (llm_api_handler Demo.ok "OPENAI_GPT4V" Demo.gpt4v Demo.prompt
             (Some Demo.step1) (Some [Demo.shot1]) None Demo.w0)
      = before ++ remote_call :: afterwards
      /\ is_acompletion (fst remote_call) = true
      /\ map fst (artifacts_created before) = [LLM_PROMPT; SCREENSHOT_LLM]
      /\ map fst (artifacts_created afterwards)
         = [LLM_REQUEST; LLM_RESPONSE; LLM_RESPONSE_PARSED].
Proof.
  split; [reflexivity|].
  intros (before & rc & afterwards & Hevs & Hrc & Hb & Ha).
  vm_compute in Hevs.
  do 11 (destruct before as [|? before]; simplify_eq/=; try done).
Qed.

Lemma str_encode_plain s :
  has_surrogate s = false -> str_encode s = Ok (encode_utf8 s).
Proof. unfold str_encode. by intros ->. Qed.

(** C9, as amended: with a Step and screenshots supplied, and unless
    the prompt cannot be encoded or the artifact manager fails on the
    prompt or on a screenshot, a "screenshot for LLM" artifact is created
    for every supplied screenshot, in input order, before the message
    builder is called, whatever the configuration says about vision: the
    builder then receives the screenshots only if the configuration
    supports vision, and [None] otherwise. *)
Theorem screenshots_persisted_before_discard app llm_key llm_config prompt step screenshots
    parameters w r evs :
  llm_api_handler app llm_key llm_config prompt (Some step) (Some screenshots) parameters w
    = (r, evs) ->
  has_surrogate prompt = false ->
  Forall (fun ev => artifact_type_of (fst ev) = Some LLM_PROMPT
                    \/ artifact_type_of (fst ev) = Some SCREENSHOT_LLM ->
                    snd ev = None) evs ->
  exists builder_raised rest,
    evs = (create_artifact_call step LLM_PROMPT (encode_utf8 prompt), None)
          :: (screenshot_created step <$> screenshots)
          ++ (llm_messages_builder_call prompt
                (if supports_vision llm_config then Some screenshots else None),
              builder_raised)
          :: rest.
Proof.
  intros H Henc Hok. apply str_encode_plain in Henc.
  destruct (supports_vision llm_config) eqn:Hv.
  all: unfold_handler H; rewrite Hv, Henc in H; cbn [negb] in H.
  all: handler_cases H; clear_answers.
  all: try (eexists _, _; reflexivity).
  all: exfalso; rewrite ?Forall_cons, ?Forall_app, ?Forall_singleton in Hok; cbn in Hok.
  all: destruct_and?.
  all: match goal with
       | Hf : _ \/ _ -> Some _ = None |- _ =>
           first [ discriminate (Hf (or_introl eq_refl))
                 | discriminate (Hf (or_intror eq_refl)) ]
       end.
Qed.

Lemma screenshots_persisted_before_discard_witness :
  supports_vision Demo.gpt35 = false
  /\ exists builder_raised rest,
      snd (llm_api_handler Demo.ok "OPENAI_GPT35" Demo.gpt35 Demo.prompt
             (Some Demo.step1) (Some [Demo.shot1; Demo.shot2]) None Demo.w0)
      = (create_artifact_call Demo.step1 LLM_PROMPT (encode_utf8 Demo.prompt), None)
        :: (screenshot_created Demo.step1 <$> [Demo.shot1; Demo.shot2])
        ++ (llm_messages_builder_call Demo.prompt None, builder_raised) :: rest.
Proof.
  split; [reflexivity|].
  refine (screenshots_persisted_before_discard Demo.ok "OPENAI_GPT35" Demo.gpt35
    Demo.prompt Demo.step1 [Demo.shot1; Demo.shot2] None Demo.w0 _ _
    eq_refl eq_refl _).
  vm_compute. repeat constructor.
Defined.

(** C9 as stated fails: here the artifact manager refuses the
    screenshots, and the invocation, with a Step and two screenshots, ends
    without an artifact for either of them. *)
Lemma screenshot_artifacts_stop_at_failure :
  artifacts_created
    (snd (llm_api_handler Outage.no_screenshots "OPENAI_GPT35" Demo.gpt35 Demo.prompt
            (Some Demo.step1) (Some [Demo.shot1; Demo.shot2]) None Demo.w0))
  = [(LLM_PROMPT, encode_utf8 Demo.prompt)]
  /\ ~ (forall screenshot, screenshot ∈ [Demo.shot1; Demo.shot2] ->
         (SCREENSHOT_LLM, screenshot)
           ∈ artifacts_created
               (snd (llm_api_handler Outage.no_screenshots "OPENAI_GPT35" Demo.gpt35
                       Demo.prompt (Some Demo.step1) (Some [Demo.shot1; Demo.shot2])
                       None Demo.w0))).
Proof.
  split; [reflexivity|].
  intros Hall. specialize (Hall Demo.shot1 (list_elem_of_here _ _)).
  vm_compute in Hall. apply list_elem_of_singleton in Hall. discriminate.
Qed.

(** ** Invocations without a Step *)



(** ** Vision *)

(** C3: when the configuration does not support vision, the message
    builder is called with the prompt and no screenshots, whatever the
    caller supplied; the messages of the remote completion call are those
    built from the prompt alone; and without a Step the whole invocation
    is the one of a caller who supplied no screenshots. *)
Theorem screenshots_dropped_without_vision app llm_key llm_config prompt step screenshots
    parameters w r evs :
  supports_vision llm_config = false ->
  llm_api_handler app llm_key llm_config prompt step screenshots parameters w = (r, evs) ->
  Forall (fun ev => forall p s, fst ev = llm_messages_builder_call p s ->
                    p = prompt /\ s = None) evs
  /\ Forall (fun ev => forall model messages kwargs,
                    fst ev = acompletion_call model messages kwargs ->
                    llm_messages_builder app prompt None = Ok messages) evs
  /\ llm_api_handler app llm_key llm_config prompt None screenshots parameters w
     = llm_api_handler app llm_key llm_config prompt None None parameters w.
Proof.
  intros Hv H. split; [|split].
  - unfold_handler H; rewrite Hv in H; cbn [negb] in H.
    handler_cases H; clear_answers; each_event; intros; by simplify_eq.
  - unfold_handler H; rewrite Hv in H; cbn [negb] in H.
    handler_cases H; clear_answers; each_event; intros; by simplify_eq.
  - unfold llm_api_handler. by rewrite Hv.
Qed.

Lemma screenshots_dropped_without_vision_witness :
  supports_vision Demo.gpt35 = false
  /\ llm_api_handler Demo.ok "OPENAI_GPT35" Demo.gpt35 Demo.prompt None
       (Some [Demo.shot1; Demo.shot2]) None Demo.w0
     = (Ok Demo.parsed_answer,
        [(llm_messages_builder_call Demo.prompt None, None);
         (acompletion_call "gpt-3.5-turbo" (Demo.messages_of Demo.prompt None)
            (default_parameters Demo.live), None);
         (parse_api_response_call Demo.answer, None)])
  /\ Forall (fun ev => forall p s, fst ev = llm_messages_builder_call p s ->
                       p = Demo.prompt /\ s = None)
       (snd (llm_api_handler Demo.ok "OPENAI_GPT35" Demo.gpt35 Demo.prompt (Some Demo.step1)
               (Some [Demo.shot1; Demo.shot2]) None Demo.w0)).
Proof.
  split; [reflexivity|]. split; [reflexivity|].
  exact (proj1 (screenshots_dropped_without_vision Demo.ok "OPENAI_GPT35" Demo.gpt35
    Demo.prompt (Some Demo.step1) (Some [Demo.shot1; Demo.shot2]) None Demo.w0 _ _
    eq_refl eq_refl)).
Defined.

(** ** Default parameters *)

(** C4: when no parameters are supplied, a handler obtained from the
    factory reads [max_tokens] and [temperature] from the settings of the
    world it is invoked in, and passes exactly these two parameters to the
    remote completion call, together with the model name of the
    configuration and the messages of the message builder.  The call is
    made with them as soon as the message builder returns and, with a
    Step, the prompt can be encoded, the request serialized and the
    artifact manager answers. *)
Theorem default_parameters_are_live app p llm_key handler prompt step screenshots
    w r evs :
  get_llm_api_handler app p llm_key = Ok handler ->
  handler prompt step screenshots None w = (r, evs) ->
  exists llm_config,
    _configs p !! llm_key = Some llm_config
    /\ get_api_parameters w
       = (Ok [("max_tokens", LLM_CONFIG_MAX_TOKENS (settings w));
              ("temperature", LLM_CONFIG_TEMPERATURE (settings w))], [])
    /\ Forall (fun ev => forall model messages kwargs,
                 fst ev = acompletion_call model messages kwargs ->
                 model = model_name llm_config
                 /\ kwargs = [("max_tokens", LLM_CONFIG_MAX_TOKENS (settings w));
                              ("temperature", LLM_CONFIG_TEMPERATURE (settings w))]
                 /\ llm_messages_builder app prompt (screenshots_sent llm_config screenshots)
                    = Ok messages) evs
    /\ (forall parsed, r = Ok parsed ->
          exists messages,
            (acompletion_call (model_name llm_config) messages
               [("max_tokens", LLM_CONFIG_MAX_TOKENS (settings w));
                ("temperature", LLM_CONFIG_TEMPERATURE (settings w))], None) ∈ evs)
    /\ (forall messages,
          llm_messages_builder app prompt (screenshots_sent llm_config screenshots)
            = Ok messages ->
          (forall s, step = Some s ->
             has_surrogate prompt = false
             /\ (forall h ty data, create_artifact app h s ty data = None)
             /\ exists data,
                 json_bytes app None
                   (request_body (model_name llm_config) messages
                      [("max_tokens", LLM_CONFIG_MAX_TOKENS (settings w));
                       ("temperature", LLM_CONFIG_TEMPERATURE (settings w))])
                 = Ok data) ->
          exists before raised_by_call afterwards,
            evs = before
                  ++ (acompletion_call (model_name llm_config) messages
                        [("max_tokens", LLM_CONFIG_MAX_TOKENS (settings w));
                         ("temperature", LLM_CONFIG_TEMPERATURE (settings w))],
                      raised_by_call)
                  :: afterwards).
Proof.
  unfold get_llm_api_handler, get_config. intros Hget H.
  destruct (_configs p !! llm_key) as [llm_config|] eqn:Hcfg; [|done].
  injection Hget as <-. exists llm_config.
  split; [done|]. split; [done|].
  unfold screenshots_sent. destruct (supports_vision llm_config) eqn:Hv.
  all: unfold_handler H; rewrite Hv in H; cbn [negb] in H.
  all: handler_cases H.
  all: split; [each_event; intros; by simplify_eq|].
  all: split; [intros parsed [=]; subst; eexists; find_event|].
  all: intros messages Hbuilt Hstep; try congruence.
  all: try match goal with
       | Hb : Ok ?m = llm_messages_builder _ _ _ |- _ =>
           assert (m = messages) by congruence; subst m
       end.
  all: try match goal with
       | Hk : repeated_keyword _ = Some _ |- _ => cbn in Hk; discriminate
       end.
  all: try (destruct (Hstep _ eq_refl) as (Henc & Hstore & data & Hjson)).
  all: try match goal with
       | Hf : create_artifact _ _ _ _ _ = Some _ |- _ => rewrite Hstore in Hf; discriminate
       end.
  all: try congruence.
  all: try match goal with
       | Hf : Raise _ = str_encode _ |- _ =>
           rewrite (str_encode_plain _ Henc) in Hf; discriminate
       end.
  all: first [ eexists (_ :: (_ <$> _) ++ [_; _]), _, _;
               cbn [List.app]; rewrite <- ?app_assoc; reflexivity
             | eexists [_], _, _; reflexivity ].
Qed.

Lemma default_parameters_are_live_witness :
  get_llm_api_handler Demo.ok Demo.deployment "OPENAI_GPT35"
    = Ok (llm_api_handler Demo.ok "OPENAI_GPT35" Demo.gpt35)
  /\ exists before raised_by_call afterwards,
      snd (llm_api_handler Demo.ok "OPENAI_GPT35" Demo.gpt35 Demo.prompt
             (Some Demo.step1) None None Demo.w0)
      = before
        ++ (acompletion_call "gpt-3.5-turbo" (Demo.messages_of Demo.prompt None)
              [("max_tokens", PyInt 500); ("temperature", PyFloat "0.1")], raised_by_call)
        :: afterwards.
Proof.
  assert (Hget : get_llm_api_handler Demo.ok Demo.deployment "OPENAI_GPT35"
    = Ok (llm_api_handler Demo.ok "OPENAI_GPT35" Demo.gpt35)) by reflexivity.
  split; [exact Hget|].
  destruct (default_parameters_are_live Demo.ok Demo.deployment "OPENAI_GPT35" _
    Demo.prompt (Some Demo.step1) None Demo.w0 _ _ Hget eq_refl)
    as (llm_config & Hcfg & _ & _ & _ & Hsent).
  assert (Hgpt : _configs Demo.deployment !! "OPENAI_GPT35" = Some Demo.gpt35)
    by reflexivity.
  rewrite Hgpt in Hcfg. injection Hcfg as <-.
  apply (Hsent (Demo.messages_of Demo.prompt None)); [reflexivity|].
  intros s _. split; [reflexivity|]. split; [reflexivity|].
  by eexists.
Defined.

(** ** The registry of custom handlers *)

(** C6: registering under a key that is already registered fails with
    [DuplicateCustomLLMProviderError] and leaves the process as it was, so
    the handler of the first registration stays; registering under a fresh
    key stores the handler under that key and touches nothing else, and a
    second registration under it is then refused. *)
Theorem register_custom_handler_once p llm_key handler :
  (forall first, _custom_handlers p !! llm_key = Some first ->
     register_custom_handler p llm_key handler
     = (Raise (DuplicateCustomLLMProviderError llm_key), p))
  /\ (_custom_handlers p !! llm_key = None ->
      exists p',
        register_custom_handler p llm_key handler = (Ok tt, p')
        /\ _custom_handlers p' !! llm_key = Some handler
        /\ (forall k, k <> llm_key -> _custom_handlers p' !! k = _custom_handlers p !! k)
        /\ _configs p' = _configs p
        /\ forall second,
             register_custom_handler p' llm_key second
             = (Raise (DuplicateCustomLLMProviderError llm_key), p')).
Proof.
  unfold register_custom_handler. split.
  - intros first Hfirst. rewrite decide_True; [done | by eexists].
  - intros Hfresh. eexists. rewrite decide_False by (rewrite Hfresh; by intros [? ?]).
    split; [done|]. cbn [_custom_handlers _configs with_custom_handlers].
    split; [apply lookup_insert_eq|].
    split; [intros k Hk; by apply lookup_insert_ne|].
    split; [done|].
    intros second. rewrite decide_True; [done|].
    rewrite lookup_insert_eq. by eexists.
Qed.

Lemma register_custom_handler_once_witness :
  _custom_handlers Demo.deployment !! "CUSTOM" = None
  /\ exists p',
      register_custom_handler Demo.deployment "CUSTOM" Demo.custom_handler = (Ok tt, p')
      /\ _custom_handlers p' !! "CUSTOM" = Some Demo.custom_handler
      /\ register_custom_handler p' "CUSTOM" (llm_api_handler Demo.ok "CUSTOM" Demo.gpt35)
         = (Raise (DuplicateCustomLLMProviderError "CUSTOM"), p').
Proof.
  assert (Hfresh : _custom_handlers Demo.deployment !! "CUSTOM" = None) by reflexivity.
  split; [exact Hfresh|].
  destruct (proj2 (register_custom_handler_once Demo.deployment "CUSTOM" Demo.custom_handler)
    Hfresh) as (p' & Hreg & Hlook & _ & _ & Hdup).
  exists p'. split; [exact Hreg|]. split; [exact Hlook|]. apply Hdup.
Defined.

(** C8, as amended: [get_llm_api_handler] does not read the registry
    of custom handlers: whatever is registered, and also right after a
    registration, it returns the handler built from the configuration of
    the key, or fails when the key has no configuration. *)
Theorem get_llm_api_handler_ignores_registry app p llm_key :
  (forall handlers,
     get_llm_api_handler app (with_custom_handlers p handlers) llm_key
     = get_llm_api_handler app p llm_key)
  /\ (forall k handler,
        get_llm_api_handler app (snd (register_custom_handler p k handler)) llm_key
        = get_llm_api_handler app p llm_key)
  /\ (forall llm_config, _configs p !! llm_key = Some llm_config ->
        get_llm_api_handler app p llm_key = Ok (llm_api_handler app llm_key llm_config))
  /\ (_configs p !! llm_key = None ->
        get_llm_api_handler app p llm_key = Raise (ConfigurationNotFoundError llm_key)).
Proof.
  unfold get_llm_api_handler, get_config. split; [done|]. split; [|split].
  - intros k handler. unfold register_custom_handler. by case_decide.
  - by intros llm_config ->.
  - by intros ->.
Qed.

Lemma get_llm_api_handler_ignores_registry_witness :
  _configs Demo.deployment !! "OPENAI_GPT35" = Some Demo.gpt35
  /\ get_llm_api_handler Demo.ok
       (snd (register_custom_handler Demo.deployment "OPENAI_GPT35" Demo.custom_handler))
       "OPENAI_GPT35"
     = Ok (llm_api_handler Demo.ok "OPENAI_GPT35" Demo.gpt35).
Proof.
  assert (Hcfg : _configs Demo.deployment !! "OPENAI_GPT35" = Some Demo.gpt35) by reflexivity.
  split; [exact Hcfg|].
  destruct (get_llm_api_handler_ignores_registry Demo.ok Demo.deployment "OPENAI_GPT35")
    as (_ & Hreg & Hbuilt & _).
  rewrite Hreg. exact (Hbuilt Demo.gpt35 Hcfg).
Defined.

(** C8 as stated fails: a custom handler is registered under a key, and
    [get_llm_api_handler] returns for that key a handler that calls the
    message builder, which the registered one does not. *)
Lemma custom_handler_not_returned :
  _custom_handlers
    (snd (register_custom_handler Demo.deployment "OPENAI_GPT35" Demo.custom_handler))
    !! "OPENAI_GPT35" = Some Demo.custom_handler
  /\ get_llm_api_handler Demo.ok
       (snd (register_custom_handler Demo.deployment "OPENAI_GPT35" Demo.custom_handler))
       "OPENAI_GPT35"
     <> Ok Demo.custom_handler.
Proof.
  split; [reflexivity|].
  intros Heq.
  assert (Hrun : forall h, Ok h = Ok Demo.custom_handler ->
            snd (h Demo.prompt None None None Demo.w0) = []).
  { intros h [= ->]. reflexivity. }
  apply Hrun in Heq. vm_compute in Heq. discriminate.
Qed.

(** ** One call of each collaborator *)

Lemma calls_where_app f evs1 evs2 :
  calls_where f (evs1 ++ evs2) = (calls_where f evs1 + calls_where f evs2)%nat.
Proof. unfold calls_where. by rewrite List.filter_app, length_app. Qed.

Lemma calls_where_screenshots f step screenshots :
  (forall s ty d, f (create_artifact_call s ty d) = false) ->
  calls_where f (screenshot_created step <$> screenshots) = 0%nat.
Proof.
  intros Hf. unfold calls_where.
  induction screenshots as [|d rest IH]; [done|].
  rewrite fmap_cons. cbn [List.filter screenshot_created fst]. by rewrite Hf.
Qed.

(** What a property of every call says of each call of a written-out list. *)
Ltac all_events H :=
  repeat first [ rewrite Forall_cons in H | rewrite Forall_app in H
               | rewrite Forall_nil in H ];
  cbn in H; destruct_and?.

Ltac count_calls :=
  repeat match goal with
  | |- context [calls_where ?f (?a :: ?l ++ ?k)] =>
      change (calls_where f (a :: l ++ k)) with (calls_where f ([a] ++ l ++ k))
  end;
  rewrite ?calls_where_app, ?calls_where_screenshots by done;
  cbn; lia.

(** X1: an invocation calls the message builder, the remote
    completion and the cost update at most once each, and logs at most
    once: nothing is retried. *)
Theorem nothing_is_retried app llm_key llm_config prompt step screenshots parameters
    w r evs :
  llm_api_handler app llm_key llm_config prompt step screenshots parameters w = (r, evs) ->
  (calls_where is_llm_messages_builder evs <= 1
   /\ calls_where is_acompletion evs <= 1
   /\ calls_where is_update_step evs <= 1
   /\ calls_where is_log_exception evs <= 1)%nat.
Proof.
  intros H. handler_cases H; clear_answers.
  all: repeat split; count_calls.
Qed.

Lemma nothing_is_retried_witness :
  (calls_where is_acompletion
     (snd (llm_api_handler Demo.provider_down "OPENAI_GPT35" Demo.gpt35 Demo.prompt
             (Some Demo.step1) (Some [Demo.shot1]) None Demo.w0)) <= 1)%nat.
Proof.
  exact (proj1 (proj2 (nothing_is_retried Demo.provider_down "OPENAI_GPT35" Demo.gpt35
    Demo.prompt (Some Demo.step1) (Some [Demo.shot1]) None Demo.w0 _ _ eq_refl))).
Defined.

(** ** More on errors *)

(** X2: an exception of the message builder is what the invocation
    raises; the builder is the last call, so no request artifact is
    written and the remote completion is not called. *)
Theorem builder_failure_propagates app llm_key llm_config prompt step screenshots
    parameters w r evs p s e :
  llm_api_handler app llm_key llm_config prompt step screenshots parameters w = (r, evs) ->
  (llm_messages_builder_call p s, Some e) ∈ evs ->
  r = Raise e
  /\ last evs = Some (llm_messages_builder_call p s, Some e)
  /\ Forall (fun ev => is_acompletion (fst ev) = false
                       /\ artifact_type_of (fst ev) <> Some LLM_REQUEST) evs.
Proof.
  intros H Hin. handler_cases H; clear_answers; in_trace Hin.
  all: split; [done | split; [last_event | each_event; done]].
Qed.

Lemma builder_failure_propagates_witness :
  llm_api_handler Outage.broken_builder "OPENAI_GPT4V" Demo.gpt4v Demo.prompt
    (Some Demo.step1) (Some [Demo.shot1]) None Demo.w0
  = (Raise Outage.bad_image,
     [(create_artifact_call Demo.step1 LLM_PROMPT (encode_utf8 Demo.prompt), None);
      screenshot_created Demo.step1 Demo.shot1;
      (llm_messages_builder_call Demo.prompt (Some [Demo.shot1]), Some Outage.bad_image)])
  /\ fst (llm_api_handler Outage.broken_builder "OPENAI_GPT4V" Demo.gpt4v Demo.prompt
            (Some Demo.step1) (Some [Demo.shot1]) None Demo.w0) = Raise Outage.bad_image.
Proof.
  split; [reflexivity|].
  refine (proj1 (builder_failure_propagates Outage.broken_builder "OPENAI_GPT4V" Demo.gpt4v
    Demo.prompt (Some Demo.step1) (Some [Demo.shot1]) None Demo.w0 _ _
    Demo.prompt (Some [Demo.shot1]) Outage.bad_image eq_refl _)).
  vm_compute. do 2 apply list_elem_of_further. apply list_elem_of_here.
Defined.

(** X3: parameters that repeat a keyword of the completion call
    ([model] or [messages]) keep the invocation from calling the remote
    completion and from returning; once the messages are built and, with
    a Step, the request artifact is written, the [TypeError] of the call
    is logged and the invocation raises [LLMProviderError] chained from
    it. *)
Theorem repeated_keyword_never_sent app llm_key llm_config prompt step screenshots
    parameters kw w r evs :
  repeated_keyword parameters = Some kw ->
  llm_api_handler app llm_key llm_config prompt step screenshots (Some parameters) w
    = (r, evs) ->
  Forall (fun ev => is_acompletion (fst ev) = false) evs
  /\ (forall parsed, r <> Ok parsed)
  /\ (match step with
      | None => exists p s, (llm_messages_builder_call p s, None) ∈ evs
      | Some step => exists data, (create_artifact_call step LLM_REQUEST data, None) ∈ evs
      end ->
      r = Raise (LLMProviderError llm_key (TypeError_multiple_values kw))
      /\ last evs = Some (log_exception_call "LLM request failed unexpectedly" llm_key, None)).
Proof.
  intros Hkw H. handler_cases H; clear_answers; try congruence.
  all: split; [each_event; done|].
  all: split; [done|].
  all: intros Hready; in_trace Hready; try done.
  all: split; [congruence | last_event].
Qed.

Lemma repeated_keyword_never_sent_witness :
  repeated_keyword [("temperature", PyFloat "0.0"); ("messages", PyList [])] = Some "messages"
  /\ fst (llm_api_handler Demo.ok "OPENAI_GPT35" Demo.gpt35 Demo.prompt (Some Demo.step1) None
            (Some [("temperature", PyFloat "0.0"); ("messages", PyList [])]) Demo.w0)
     = Raise (LLMProviderError "OPENAI_GPT35" (TypeError_multiple_values "messages")).
Proof.
  split; [reflexivity|].
  refine (proj1 (proj2 (proj2 (repeated_keyword_never_sent Demo.ok "OPENAI_GPT35" Demo.gpt35
    Demo.prompt (Some Demo.step1) None
    [("temperature", PyFloat "0.0"); ("messages", PyList [])] "messages" Demo.w0 _ _
    eq_refl eq_refl)) _)).
  exists (encode_utf8 "{}"). vm_compute.
  do 2 apply list_elem_of_further. apply list_elem_of_here.
Defined.

(** X4: a failed remote completion is logged exactly when its
    exception is not an [openai.OpenAIError]: a provider error ends the
    invocation with the completion call, any other exception with the log
    call that follows it. *)
Theorem unexpected_errors_are_logged app llm_key llm_config prompt step screenshots
    parameters w r evs model messages kwargs e :
  llm_api_handler app llm_key llm_config prompt step screenshots parameters w = (r, evs) ->
  (acompletion_call model messages kwargs, Some e) ∈ evs ->
  is_Exception e = true ->
  (is_OpenAIError e = true ->
     calls_where is_log_exception evs = 0%nat
     /\ last evs = Some (acompletion_call model messages kwargs, Some e))
  /\ (is_OpenAIError e = false ->
     calls_where is_log_exception evs = 1%nat
     /\ last evs = Some (log_exception_call "LLM request failed unexpectedly" llm_key, None)).
Proof.
  intros H Hin He. handler_cases H; clear_answers; in_trace Hin; try congruence.
  all: split; intros Ho; try congruence.
  all: split; [count_calls | last_event].
Qed.

Lemma unexpected_errors_are_logged_witness :
  llm_api_handler Outage.provider_hangs "OPENAI_GPT35" Demo.gpt35 Demo.prompt None None None Demo.w0
  = (Raise (LLMProviderError "OPENAI_GPT35" Outage.timeout),
     [(llm_messages_builder_call Demo.prompt None, None);
      (acompletion_call "gpt-3.5-turbo" (Demo.messages_of Demo.prompt None)
         (default_parameters Demo.live), Some Outage.timeout);
      (log_exception_call "LLM request failed unexpectedly" "OPENAI_GPT35", None)])
  /\ calls_where is_log_exception
       (snd (llm_api_handler Outage.provider_hangs "OPENAI_GPT35" Demo.gpt35 Demo.prompt
               None None None Demo.w0)) = 1%nat.
Proof.
  split; [reflexivity|].
  refine (proj1 (proj2 (unexpected_errors_are_logged Outage.provider_hangs "OPENAI_GPT35" Demo.gpt35
    Demo.prompt None None None Demo.w0 _ _ "gpt-3.5-turbo"
    (Demo.messages_of Demo.prompt None) (default_parameters Demo.live) Outage.timeout
    eq_refl _ eq_refl) eq_refl)).
  vm_compute. apply list_elem_of_further. apply list_elem_of_here.
Defined.

(** ** Explicit parameters *)

Lemma blind_ret {A} (a : A) : settings_blind (ret a).
Proof. by intros w w' _. Qed.

Lemma blind_eval {A} (x : result A) : settings_blind (eval x).
Proof. by intros w w' _. Qed.

Lemma blind_raise {A} e : settings_blind (raise (A:=A) e).
Proof. by intros w w' _. Qed.

Lemma blind_perform c answer : settings_blind (perform c answer).
Proof. intros w w' Hh. unfold perform. by rewrite Hh. Qed.

Lemma blind_request {A} c (answer : list event -> result A) :
  settings_blind (request c answer).
Proof. intros w w' Hh. unfold request. by rewrite Hh. Qed.

Lemma blind_bind {A B} (m : M A) (k : A -> M B) :
  settings_blind m -> (forall a, settings_blind (k a)) -> settings_blind (bind m k).
Proof.
  intros Hm Hk w w' Hh. unfold bind. rewrite (Hm w w' Hh).
  destruct (m w') as [[a|e] evs]; [|done].
  rewrite (Hk a (after w evs) (after w' evs)); [done|].
  cbn [history after]. by rewrite Hh.
Qed.

Lemma blind_try_except {A} (body : M A) handler :
  settings_blind body -> (forall e, settings_blind (handler e)) ->
  settings_blind (try_except body handler).
Proof.
  intros Hm Hk w w' Hh. unfold try_except. rewrite (Hm w w' Hh).
  destruct (body w') as [[a|e] evs]; [done|].
  rewrite (Hk e (after w evs) (after w' evs)); [done|].
  cbn [history after]. by rewrite Hh.
Qed.

Lemma blind_if_step step body :
  (forall s, settings_blind (body s)) -> settings_blind (if_step step body).
Proof. intros Hb. destruct step; [apply Hb | apply blind_ret]. Qed.

Lemma blind_for_screenshots app step screenshots :
  settings_blind (for_screenshots app step screenshots).
Proof.
  induction screenshots as [|d rest IH]; [apply blind_ret|].
  cbn [for_screenshots]. apply blind_bind; [apply blind_perform | by intros _].
Qed.

Ltac blind :=
  repeat first
    [ apply blind_ret | apply blind_raise | apply blind_eval
    | apply blind_perform | apply blind_request
    | apply blind_for_screenshots
    | apply blind_bind; [|intros ?] | apply blind_try_except; [|intros ?]
    | apply blind_if_step; intros ?
    | match goal with |- settings_blind (match ?x with _ => _ end) => destruct x end
    | match goal with |- settings_blind (if ?b then _ else _) => destruct b end ].

(** X5: parameters that are supplied, an empty dict included, are
    passed to the remote completion as they are, and the invocation does
    not depend on the settings: it is the same under any other settings. *)
Theorem explicit_parameters_override_settings app llm_key llm_config prompt step screenshots
    parameters w r evs :
  llm_api_handler app llm_key llm_config prompt step screenshots (Some parameters) w
    = (r, evs) ->
  (forall other,
     llm_api_handler app llm_key llm_config prompt step screenshots (Some parameters)
       {| settings := other; history := history w |} = (r, evs))
  /\ Forall (fun ev => forall model messages kwargs,
               fst ev = acompletion_call model messages kwargs -> kwargs = parameters) evs.
Proof.
  intros H. split.
  - intros other. rewrite <- H.
    assert (Hblind : settings_blind
      (llm_api_handler app llm_key llm_config prompt step screenshots (Some parameters))).
    { unfold llm_api_handler, ARTIFACT_MANAGER_create_artifact, DATABASE_update_step,
        call_llm_messages_builder, litellm_acompletion, litellm_completion_cost,
        call_parse_api_response, LOG_exception. blind. }
    by apply Hblind.
  - handler_cases H; clear_answers; each_event; intros; by simplify_eq.
Qed.

Lemma explicit_parameters_override_settings_witness :
  llm_api_handler Demo.ok "OPENAI_GPT35" Demo.gpt35 Demo.prompt None None (Some []) Demo.w0
  = (Ok Demo.parsed_answer,
     [(llm_messages_builder_call Demo.prompt None, None);
      (acompletion_call "gpt-3.5-turbo" (Demo.messages_of Demo.prompt None) [], None);
      (parse_api_response_call Demo.answer, None)])
  /\ llm_api_handler Demo.ok "OPENAI_GPT35" Demo.gpt35 Demo.prompt None None (Some [])
       {| settings := {| LLM_CONFIG_MAX_TOKENS := PyInt 1; LLM_CONFIG_TEMPERATURE := PyNone |};
          history := [] |}
     = (Ok Demo.parsed_answer,
        [(llm_messages_builder_call Demo.prompt None, None);
         (acompletion_call "gpt-3.5-turbo" (Demo.messages_of Demo.prompt None) [], None);
         (parse_api_response_call Demo.answer, None)]).
Proof.
  split; [reflexivity|].
  exact (proj1 (explicit_parameters_override_settings Demo.ok "OPENAI_GPT35" Demo.gpt35
    Demo.prompt None None [] Demo.w0 _ _ eq_refl) _).
Defined.

(** ** The request artifact *)

Lemma dict_set_fresh k v d :
  k ∉ dict_keys d -> dict_set k v d = d ++ [(k, v)].
Proof.
  induction d as [|[k' v'] d IH]; intros Hk; [done|].
  cbn [dict_set]. unfold dict_keys in *. rewrite fmap_cons in Hk.
  apply not_elem_of_cons in Hk as [Hne Hk]. cbn [fst] in Hne.
  destruct (String.eqb_spec k k') as [->|_]; [done|].
  by rewrite IH.
Qed.

Lemma dict_update_fresh d extra :
  NoDup (dict_keys extra) ->
  (forall k, k ∈ dict_keys extra -> k ∉ dict_keys d) ->
  dict_update d extra = d ++ extra.
Proof.
  unfold dict_update. revert d. induction extra as [|[k v] extra IH]; intros d Hnd Hd.
  - cbn. by rewrite app_nil_r.
  - unfold dict_keys in *. rewrite fmap_cons in Hnd, Hd. cbn [fst] in *.
    apply NoDup_cons in Hnd as [Hk Hnd].
    cbn [fold_left fst snd]. rewrite dict_set_fresh by (apply Hd; left).
    rewrite IH; [by rewrite <- app_assoc | done |].
    intros k' Hk'. unfold dict_keys. rewrite fmap_app, elem_of_app.
    intros [Hin|Hin].
    + by apply (Hd k'); [right|].
    + apply list_elem_of_singleton in Hin. cbn in Hin. by subst.
Qed.

Lemma repeated_keyword_None d :
  repeated_keyword d = None -> ("model" ∉ dict_keys d) /\ ("messages" ∉ dict_keys d).
Proof.
  unfold repeated_keyword. intros Hnone.
  destruct (find _ d) as [kv|] eqn:Hfind; [done|].
  split; intros Hin; unfold dict_keys in Hin;
    apply list_elem_of_fmap in Hin as ([k v] & Hk & Hin); cbn in Hk; subst k;
    apply list_elem_of_In in Hin; apply (find_none _ _ Hfind) in Hin; cbn in Hin;
    discriminate.
Qed.

(** X6: for parameters with distinct keys, none of them [model] or
    [messages], the request that is written as the "LLM request" artifact
    lists the model, the messages and then the parameters, in the order
    in which they were given. *)
Theorem request_body_lists_parameters model messages parameters :
  repeated_keyword parameters = None ->
  NoDup (dict_keys parameters) ->
  request_body model messages parameters
  = PyDict (("model", PyStr model) :: ("messages", messages) :: parameters).
Proof.
  intros Hkw Hnd. apply repeated_keyword_None in Hkw as [Hmodel Hmessages].
  unfold request_body. rewrite dict_update_fresh; [done | done |].
  intros k Hk Hin. unfold dict_keys in Hin. cbn in Hin.
  apply elem_of_cons in Hin as [->|Hin]; [done|].
  apply list_elem_of_singleton in Hin as ->. done.
Qed.

Lemma request_body_lists_parameters_witness :
  request_body "gpt-3.5-turbo" (PyList []) (default_parameters Demo.live)
  = PyDict [("model", PyStr "gpt-3.5-turbo"); ("messages", PyList []);
            ("max_tokens", PyInt 500); ("temperature", PyFloat "0.1")].
Proof.
  apply (request_body_lists_parameters "gpt-3.5-turbo" (PyList [])
           (default_parameters Demo.live)); [reflexivity|].
  cbn. apply NoDup_cons. split.
  - intros Hin. apply list_elem_of_singleton in Hin. discriminate.
  - apply NoDup_singleton.
Defined.

(** X7: whenever the remote completion is called in an invocation
    with a Step, the "LLM request" artifact has been written before, and
    it holds the model, the messages and the parameters of that very
    call. *)
Theorem request_artifact_records_the_call app llm_key llm_config prompt step screenshots
    parameters w r evs model messages kwargs raised_by_call :
  llm_api_handler app llm_key llm_config prompt (Some step) screenshots parameters w
    = (r, evs) ->
  (acompletion_call model messages kwargs, raised_by_call) ∈ evs ->
  exists before afterwards data,
    json_bytes app None (request_body model messages kwargs) = Ok data
    /\ evs = before
             ++ [(create_artifact_call step LLM_REQUEST data, None);
                 (acompletion_call model messages kwargs, raised_by_call)]
             ++ afterwards.
Proof.
  intros H Hin. handler_cases H; clear_answers; in_trace Hin.
  all: eexists (_ :: (_ <$> _) ++ [_]), _, _.
  all: split; [symmetry; eassumption|].
  all: cbn [List.app]; rewrite <- ?app_assoc; reflexivity.
Qed.

Lemma request_artifact_records_the_call_witness :
  exists before afterwards data,
    json_bytes Demo.provider_down None
      (request_body "gpt-3.5-turbo" (Demo.messages_of Demo.prompt None)
         (default_parameters Demo.live)) = Ok data
    /\ snd (llm_api_handler Demo.provider_down "OPENAI_GPT35" Demo.gpt35 Demo.prompt
              (Some Demo.step1) None None Demo.w0)
       = before
         ++ [(create_artifact_call Demo.step1 LLM_REQUEST data, None);
             (acompletion_call "gpt-3.5-turbo" (Demo.messages_of Demo.prompt None)
                (default_parameters Demo.live), Some Demo.rate_limited)]
         ++ afterwards.
Proof.
  refine (request_artifact_records_the_call Demo.provider_down "OPENAI_GPT35" Demo.gpt35
    Demo.prompt Demo.step1 None None Demo.w0 _ _ _ _ _ _ eq_refl _).
  vm_compute. do 3 apply list_elem_of_further. apply list_elem_of_here.
Defined.

(** ** What is stored is what was answered *)

(** X8: in an invocation with a Step that returns, the calls after the
    remote completion all work on the response it returned: the "LLM
    response" artifact holds its dump, the cost reported for the Step's
    task, step and organization ids is its cost estimate, the result is
    what the parser makes of it, and the "LLM response parsed" artifact
    holds the dump of the result. *)
Theorem response_flows_to_artifacts_and_cost app llm_key llm_config prompt step screenshots
    parameters w parsed evs :
  llm_api_handler app llm_key llm_config prompt (Some step) screenshots parameters w
    = (Ok parsed, evs) ->
  exists before model messages kwargs response cost response_data parsed_data,
    evs = before
          ++ [(acompletion_call model messages kwargs, None);
              (create_artifact_call step LLM_RESPONSE response_data, None);
              (completion_cost_call response, None);
              (update_step_call (task_id step) (step_id step) (organization_id step) cost,
               None);
              (parse_api_response_call response, None);
              (create_artifact_call step LLM_RESPONSE_PARSED parsed_data, None)]
    /\ acompletion app (history w ++ before) model messages kwargs = Ok response
    /\ response_bytes app response = Ok response_data
    /\ completion_cost app response = Ok cost
    /\ parse_api_response app response = Ok parsed
    /\ json_bytes app (Some 2%nat) parsed = Ok parsed_data.
Proof.
  intros H. handler_cases H.
  all: cbn [history after] in *; rewrite ?app_nil_r in *.
  all: eexists (_ :: (_ <$> _) ++ [_; _]), _, _, _, _, _, _, _.
  all: split; [cbn [List.app]; rewrite <- ?app_assoc; reflexivity|].
  all: split; [|by repeat split].
  all: match goal with Ha : Ok _ = acompletion _ _ _ _ _ |- _ => rewrite Ha end.
  all: f_equal; cbn [List.app]; rewrite <- ?app_assoc; reflexivity.
Qed.

Lemma response_flows_to_artifacts_and_cost_witness :
  exists before model messages kwargs response cost response_data parsed_data,
    snd (llm_api_handler Demo.ok "OPENAI_GPT35" Demo.gpt35 Demo.prompt
           (Some Demo.step1) None None Demo.w0)
    = before
      ++ [(acompletion_call model messages kwargs, None);
          (create_artifact_call Demo.step1 LLM_RESPONSE response_data, None);
          (completion_cost_call response, None);
          (update_step_call "tsk_1" "stp_1" "o_1" cost, None);
          (parse_api_response_call response, None);
          (create_artifact_call Demo.step1 LLM_RESPONSE_PARSED parsed_data, None)]
    /\ acompletion Demo.ok (history Demo.w0 ++ before) model messages kwargs = Ok response
    /\ response_bytes Demo.ok response = Ok response_data
    /\ completion_cost Demo.ok response = Ok cost
    /\ parse_api_response Demo.ok response = Ok Demo.parsed_answer
    /\ json_bytes Demo.ok (Some 2%nat) Demo.parsed_answer = Ok parsed_data.
Proof.
  exact (response_flows_to_artifacts_and_cost Demo.ok "OPENAI_GPT35" Demo.gpt35
    Demo.prompt Demo.step1 None None Demo.w0 Demo.parsed_answer _ eq_refl).
Defined.

(** ** The screenshot loop *)

Lemma screenshots_stored_app evs1 evs2 :
  screenshots_stored (evs1 ++ evs2) = screenshots_stored evs1 ++ screenshots_stored evs2.
Proof. apply omap_app. Qed.

Lemma screenshots_stored_screenshots step screenshots :
  screenshots_stored (screenshot_created step <$> screenshots) = screenshots.
Proof.
  induction screenshots as [|d rest IH]; [done|].
  unfold screenshots_stored in *. rewrite fmap_cons.
  cbn [omap list_omap screenshot_stored screenshot_created]. by rewrite IH.
Qed.

(** X9: on every path the screenshots stored as artifacts are the
    first ones supplied, in their order, with none skipped; without a Step
    none is stored, and once the message builder is called with a Step
    all of them are. *)
Theorem stored_screenshots_are_a_prefix app llm_key llm_config prompt step screenshots
    parameters w r evs :
  llm_api_handler app llm_key llm_config prompt step screenshots parameters w = (r, evs) ->
  (exists k, screenshots_stored evs = take k (default [] screenshots))
  /\ (step = None -> screenshots_stored evs = [])
  /\ (is_Some step -> (calls_where is_llm_messages_builder evs = 1)%nat ->
      screenshots_stored evs = default [] screenshots).
Proof.
  intros H. handler_cases H; clear_answers.
  all: repeat match goal with
       | |- context [screenshots_stored (?a :: ?l ++ ?k)] =>
           change (screenshots_stored (a :: l ++ k))
             with (screenshots_stored ([a] ++ l ++ k))
       end.
  all: rewrite ?screenshots_stored_app, ?screenshots_stored_screenshots.
  all: cbn [screenshots_stored omap list_omap screenshot_stored List.app].
  all: rewrite ?app_nil_r.
  all: split; [first [ by exists 0%nat | by eexists
                     | exists (length (default [] screenshots)); by rewrite take_ge ]|].
  all: split; [done|].
  all: intros Hstep Hbuilt; try done.
  all: try (by destruct Hstep).
  all: exfalso; revert Hbuilt; count_calls.
Qed.

Lemma stored_screenshots_are_a_prefix_witness :
  screenshots_stored
    (snd (llm_api_handler Demo.store_full "OPENAI_GPT35" Demo.gpt35 Demo.prompt
            (Some Demo.step1) (Some [Demo.shot1; Demo.shot2]) None Demo.w0))
  = [Demo.shot1; Demo.shot2].
Proof.
  refine (proj2 (proj2 (stored_screenshots_are_a_prefix Demo.store_full "OPENAI_GPT35"
    Demo.gpt35 Demo.prompt (Some Demo.step1) (Some [Demo.shot1; Demo.shot2]) None Demo.w0
    _ _ eq_refl)) _ eq_refl).
  by eexists.
Defined.

(** ** Returning *)

(** X10: an invocation that returns has had every one of its calls
    return, and it returns exactly when its last call returned and was,
    with a Step, the write of the "LLM response parsed" artifact and,
    without one, the response parser. *)
Theorem returns_iff_last_call_returns app llm_key llm_config prompt step screenshots
    parameters w r evs :
  llm_api_handler app llm_key llm_config prompt step screenshots parameters w = (r, evs) ->
  (forall parsed, r = Ok parsed -> Forall (fun ev => snd ev = None) evs)
  /\ ((exists parsed, r = Ok parsed) <->
      match step with
      | None => exists response, last evs = Some (parse_api_response_call response, None)
      | Some step =>
          exists data,
            last evs = Some (create_artifact_call step LLM_RESPONSE_PARSED data, None)
      end).
Proof.
  intros H. handler_cases H; clear_answers.
  all: split; [intros parsed [=]; try (each_event; done)|].
  all: split; [intros [parsed [=]];
               try (rewrite ?last_cons, ?last_app; cbn; eexists; reflexivity)|].
  all: intros [? Hlast].
  all: try (exfalso; revert Hlast; rewrite ?last_cons, ?last_app; cbn; by intros [=]).
  all: by eexists.
Qed.

Lemma returns_iff_last_call_returns_witness :
  exists parsed,
    fst (llm_api_handler Demo.ok "OPENAI_GPT4V" Demo.gpt4v Demo.prompt
           (Some Demo.step1) (Some [Demo.shot1]) None Demo.w0) = Ok parsed.
Proof.
  refine (proj2 (proj2 (returns_iff_last_call_returns Demo.ok "OPENAI_GPT4V" Demo.gpt4v
    Demo.prompt (Some Demo.step1) (Some [Demo.shot1]) None Demo.w0 _ _ eq_refl)) _).
  exists (encode_utf8 "{}"). reflexivity.
Defined.

(** ** Registrations in sequence *)

(** X11: a registration never removes or replaces a handler that is
    registered, whatever key it is for and whether it succeeds, and
    registrations under two different keys give the same process in
    either order. *)
Theorem registrations_accumulate p k1 h1 k2 h2 :
  (forall k h, _custom_handlers p !! k = Some h ->
     _custom_handlers (snd (register_custom_handler p k1 h1)) !! k = Some h)
  /\ (k1 <> k2 ->
      snd (register_custom_handler (snd (register_custom_handler p k1 h1)) k2 h2)
      = snd (register_custom_handler (snd (register_custom_handler p k2 h2)) k1 h1)).
Proof.
  split.
  - intros k h Hk. unfold register_custom_handler. case_decide as Hdup; [done|].
    cbn. destruct (decide (k1 = k)) as [->|Hne].
    + exfalso. apply Hdup. by eexists.
    + by rewrite lookup_insert_ne.
  - intros Hne. unfold register_custom_handler.
    destruct (decide (is_Some (_custom_handlers p !! k1))) as [H1|H1];
      destruct (decide (is_Some (_custom_handlers p !! k2))) as [H2|H2];
      cbn [snd _custom_handlers with_custom_handlers];
      rewrite ?lookup_insert_ne by done;
      repeat case_decide; try done.
    cbn. unfold with_custom_handlers. cbn. f_equal. by apply insert_insert_ne.
Qed.

Lemma registrations_accumulate_witness :
  snd (register_custom_handler
         (snd (register_custom_handler Demo.deployment "A" Demo.custom_handler))
         "B" (llm_api_handler Demo.ok "B" Demo.gpt35))
  = snd (register_custom_handler
           (snd (register_custom_handler Demo.deployment "B"
                   (llm_api_handler Demo.ok "B" Demo.gpt35)))
           "A" Demo.custom_handler).
Proof.
  apply (proj2 (registrations_accumulate Demo.deployment "A" Demo.custom_handler
                  "B" (llm_api_handler Demo.ok "B" Demo.gpt35))).
  discriminate.
Defined.

(** ** What cannot be encoded or serialized *)

(** X12: a prompt that holds a surrogate cannot be encoded: with a
    Step the invocation raises [UnicodeEncodeError] before it calls
    anyone, so nothing is stored; without a Step the prompt is not encoded
    and goes to the message builder as it is. *)
Theorem surrogate_prompt_needs_no_step app llm_key llm_config prompt screenshots
    parameters w :
  has_surrogate prompt = true ->
  (forall step,
     llm_api_handler app llm_key llm_config prompt (Some step) screenshots parameters w
     = (Raise UnicodeEncodeError, []))
  /\ exists r builder_raised rest,
      llm_api_handler app llm_key llm_config prompt None screenshots parameters w
      = (r, (llm_messages_builder_call prompt (screenshots_sent llm_config screenshots),
             builder_raised) :: rest).
Proof.
  intros Hs. split.
  - intros step.
    destruct (llm_api_handler app llm_key llm_config prompt (Some step) screenshots
                parameters w) as [r evs] eqn:H.
    assert (Henc : str_encode prompt = Raise UnicodeEncodeError)
      by (unfold str_encode; by rewrite Hs).
    unfold_handler H; rewrite Henc in H. handler_cases H; by clear_answers.
  - destruct (llm_api_handler app llm_key llm_config prompt None screenshots
                parameters w) as [r evs] eqn:H.
    unfold screenshots_sent. destruct (supports_vision llm_config) eqn:Hv.
    all: unfold_handler H; rewrite Hv in H; cbn [negb] in H.
    all: handler_cases H; clear_answers; by eexists _, _, _.
Qed.

Lemma surrogate_prompt_needs_no_step_witness :
  has_surrogate Outage.torn_prompt = true
  /\ llm_api_handler Demo.ok "OPENAI_GPT35" Demo.gpt35 Outage.torn_prompt
       (Some Demo.step1) None None Demo.w0
     = (Raise UnicodeEncodeError, []).
Proof.
  split; [reflexivity|].
  exact (proj1 (surrogate_prompt_needs_no_step Demo.ok "OPENAI_GPT35" Demo.gpt35
    Outage.torn_prompt None None Demo.w0 eq_refl) Demo.step1).
Defined.

(** X13: with a Step, a request that cannot be serialized is never
    sent: once the message builder has returned, an exception of
    [json.dumps] on the request is what the invocation raises; the
    builder is the last call, so no "LLM request" artifact is written and
    the remote completion is not called. *)
Theorem unserializable_request_never_sent app llm_key llm_config prompt step screenshots
    parameters w r evs messages e :
  llm_api_handler app llm_key llm_config prompt (Some step) screenshots parameters w
    = (r, evs) ->
  (llm_messages_builder_call prompt (screenshots_sent llm_config screenshots), None) ∈ evs ->
  llm_messages_builder app prompt (screenshots_sent llm_config screenshots) = Ok messages ->
  json_bytes app None
    (request_body (model_name llm_config) messages
       (default (default_parameters (settings w)) parameters)) = Raise e ->
  r = Raise e
  /\ last evs
     = Some (llm_messages_builder_call prompt (screenshots_sent llm_config screenshots), None)
  /\ Forall (fun ev => is_acompletion (fst ev) = false) evs.
Proof.
  unfold screenshots_sent, default_parameters.
  intros H Hin Hbuilt Hdump. destruct (supports_vision llm_config) eqn:Hv.
  all: unfold_handler H; rewrite Hv in H; cbn [negb] in H.
  all: handler_cases H; clear_answers; in_trace Hin.
  all: cbn [default from_option id] in *.
  all: try congruence.
  all: split; [congruence | split; [last_event | each_event; done]].
Qed.

Lemma unserializable_request_never_sent_witness :
  llm_api_handler Outage.unserializable "OPENAI_GPT35" Demo.gpt35 Demo.prompt
    (Some Demo.step1) None None Demo.w0
  = (Raise Outage.not_serializable,
     [(create_artifact_call Demo.step1 LLM_PROMPT (encode_utf8 Demo.prompt), None);
      (llm_messages_builder_call Demo.prompt None, None)])
  /\ Forall (fun ev => is_acompletion (fst ev) = false)
       (snd (llm_api_handler Outage.unserializable "OPENAI_GPT35" Demo.gpt35 Demo.prompt
               (Some Demo.step1) None None Demo.w0)).
Proof.
  split; [reflexivity|].
  refine (proj2 (proj2 (unserializable_request_never_sent Outage.unserializable
    "OPENAI_GPT35" Demo.gpt35 Demo.prompt Demo.step1 None None Demo.w0 _ _
    (Demo.messages_of Demo.prompt None) Outage.not_serializable eq_refl _ eq_refl eq_refl))).
  vm_compute. apply list_elem_of_further, list_elem_of_here.
Defined.
